(** * Loads at the centroid of a bolt group

    A shallow embedding of the code cells of
    [training_loads_at_centroid.ipynb] and of the force/moment reduction the
    specification extracts from them.

    The notebook works on Python integers (unbounded, modelled as [Z]) and on
    numpy arrays built from them.  An array built by [array([...])] from
    Python integers that all fit in 64 bits has dtype [int64] (numpy's
    default integer type on 64 bit Linux and macOS); arithmetic on such
    arrays wraps around silently, which is written out below. *)

From Stdlib Require Import ZArith List Lia Bool Permutation.
Import ListNotations.
Local Open Scope Z_scope.

(** ** Triples of numbers *)

(** A Python 3-tuple of integers, or the three cells of a numpy array of
    shape [(3,)]. *)
Record Vec3 : Type := mkVec3 { vx : Z; vy : Z; vz : Z }.

Notation "<< x , y , z >>" := (mkVec3 x y z) (at level 0, x at level 99, y at level 99, z at level 99).

(** Exact vector algebra, as the notebook's prose and the specification's
    "Numeric semantics" paragraph state it. *)
Module Vec.

Definition zero : Vec3 := << 0, 0, 0 >>.

Definition add (u v : Vec3) : Vec3 :=
  << vx u + vx v, vy u + vy v, vz u + vz v >>.

Definition sub (u v : Vec3) : Vec3 :=
  << vx u - vx v, vy u - vy v, vz u - vz v >>.

Definition opp (u : Vec3) : Vec3 := << - vx u, - vy u, - vz u >>.

(** [(ax,ay,az) x (bx,by,bz) = (ay*bz - az*by, az*bx - ax*bz, ax*by - ay*bx)] *)
Definition cross (a b : Vec3) : Vec3 :=
  << vy a * vz b - vz a * vy b,
     vz a * vx b - vx a * vz b,
     vx a * vy b - vy a * vx b >>.

Definition sum (vs : list Vec3) : Vec3 := fold_right add zero vs.

End Vec.

(** ** The fragment of numpy the notebook uses *)

Module Numpy.

Definition int64_min : Z := - 2 ^ 63.
Definition int64_max : Z := 2 ^ 63 - 1.

Definition in_int64 (z : Z) : bool := (int64_min <=? z) && (z <=? int64_max).

(** Two's complement wrap-around of a 64 bit signed integer. *)
Definition wrap64 (z : Z) : Z := (z + 2 ^ 63) mod 2 ^ 64 - 2 ^ 63.

Definition add64 (a b : Z) : Z := wrap64 (a + b).
Definition sub64 (a b : Z) : Z := wrap64 (a - b).
Definition mul64 (a b : Z) : Z := wrap64 (a * b).

(** [array([x, y, z])] on Python integers.  The dtype is [int64] when the
    three of them fit; an integer outside that range makes numpy choose
    another dtype ([uint64], [float64] or [object]), which is outside this
    fragment: [None]. *)
Definition array (t : Vec3) : option Vec3 :=
  if in_int64 (vx t) && in_int64 (vy t) && in_int64 (vz t)
  then Some t else None.

(** [a + b] on two [int64] arrays of shape [(3,)]. *)
Definition add (a b : Vec3) : Vec3 :=
  << add64 (vx a) (vx b), add64 (vy a) (vy b), add64 (vz a) (vz b) >>.

(** [cross(a, b)] on two [int64] arrays of shape [(3,)]:
    [cp0 = a1*b2 - a2*b1], [cp1 = a2*b0 - a0*b2], [cp2 = a0*b1 - a1*b0],
    every product and difference taken in [int64]. *)
Definition cross (a b : Vec3) : Vec3 :=
  << sub64 (mul64 (vy a) (vz b)) (mul64 (vz a) (vy b)),
     sub64 (mul64 (vz a) (vx b)) (mul64 (vx a) (vz b)),
     sub64 (mul64 (vx a) (vy b)) (mul64 (vy a) (vx b)) >>.

End Numpy.

(** Sequencing of the steps that can leave the [int64] fragment. *)
Definition obind {A B : Type} (m : option A) (k : A -> option B) : option B :=
  match m with
  | Some a => k a
  | None => None
  end.

Notation "x <- m ;; k" := (obind m (fun x => k))
  (at level 61, m at next level, right associativity).

(** ** The notebook's cells

    The cells compute on literals.  They are embedded as functions of those
    literals, so that the exercises' data sets can be run through the same
    cells; [scenario1] below is the data the notebook itself uses. *)

Module Notebook.

(** The names bound by the assignments of the first cells: the forces at
    the points A and B, and the coordinates of A, B and of the centroid C. *)
Record Data : Type := mkData {
  Fax : Z; Fay : Z; Faz : Z;
  Fbx : Z; Fby : Z; Fbz : Z;
  ax : Z; ay : Z; az : Z;
  bx : Z; by' : Z; bz : Z;
  cx : Z; cy : Z; cz : Z
}.

Section Cells.

Variable d : Data.

(** *** Forces at the bolt centroid, summed by hand *)

Definition Fcx : Z := Fax d + Fbx d.
Definition Fcy : Z := Fay d + Fby d.
Definition Fcz : Z := Faz d + Fbz d.

(** *** Forces at the bolt centroid, by vector addition *)

Definition Fa : option Vec3 := Numpy.array << Fax d, Fay d, Faz d >>.
Definition Fb : option Vec3 := Numpy.array << Fbx d, Fby d, Fbz d >>.

Definition Fc : option Vec3 :=
  fa <- Fa ;; fb <- Fb ;; Some (Numpy.add fa fb).

(** *** Moments at the bolt centroid, summed by hand *)

Definition point_a : Vec3 := << ax d, ay d, az d >>.
Definition point_b : Vec3 := << bx d, by' d, bz d >>.
Definition point_c : Vec3 := << cx d, cy d, cz d >>.

Definition CAx : Z := ax d - cx d.
Definition CAy : Z := ay d - cy d.
Definition CAz : Z := az d - cz d.
Definition CA : Vec3 := << CAx, CAy, CAz >>.

Definition CBx : Z := bx d - cx d.
Definition CBy : Z := by' d - cy d.
Definition CBz : Z := bz d - cz d.
Definition CB : Vec3 := << CBx, CBy, CBz >>.

Definition Mcx : Z := ((- Fay d) * CAz) - (Fby d * CBz) + (Fbz d * CBy).
Definition Mcy : Z := (Fax d * CAz) + (Fbx d * CBz).
Definition Mcz : Z := ((- Fbx d) * CBy).

(** *** Moments at the bolt centroid, by vector operations

    [cross] turns the tuples [CA] and [CB] into arrays first. *)

Definition Mc : option Vec3 :=
  ca <- Numpy.array CA ;; fa <- Fa ;;
  cb <- Numpy.array CB ;; fb <- Fb ;;
  Some (Numpy.add (Numpy.cross ca fa) (Numpy.cross cb fb)).

(** *** A moment applied at point B as well

    The cell adds the literal [array([-1_500_000, 2_000_000, -3_200_000])];
    [m] stands for that literal. *)

Definition Mc_new (m : Vec3) : option Vec3 :=
  mc <- Mc ;; mb <- Numpy.array m ;; Some (Numpy.add mc mb).

End Cells.

(** The data of the worked example (the table of points A, B and C). *)
Definition scenario1 : Data :=
  {| Fax := -1200; Fay := 2000; Faz := -3000;
     Fbx := 3200;  Fby := 1200; Fbz := -1200;
     ax := 0; ay := 0;    az := 1500;
     bx := 0; by' := 800; bz := 1100;
     cx := 0; cy := 0;    cz := 0 |}.

(** The moment applied at point B in the second worked example. *)
Definition moment_b : Vec3 := << -1500000, 2000000, -3200000 >>.

(** The data of exercise 3.1 (points D and B), with D taking the place the
    cells give to A. *)
Definition exercise31 : Data :=
  {| Fax := 1800; Fay := 3300; Faz := 2200;
     Fbx := 3200; Fby := 1200; Fbz := -1200;
     ax := 0; ay := -950; az := 1475;
     bx := 0; by' := 800; bz := 1100;
     cx := 0; cy := 0;    cz := 0 |}.

(** A data set seen from another origin: the three points moved by [t]. *)
Definition translated (t : Vec3) (d : Data) : Data :=
  {| Fax := Fax d; Fay := Fay d; Faz := Faz d;
     Fbx := Fbx d; Fby := Fby d; Fbz := Fbz d;
     ax := ax d + vx t; ay := ay d + vy t;   az := az d + vz t;
     bx := bx d + vx t; by' := by' d + vy t; bz := bz d + vz t;
     cx := cx d + vx t; cy := cy d + vy t;   cz := cz d + vz t |}.

(** A data set with the centroid put at [c], the loads left where they are. *)
Definition with_centroid (c : Vec3) (d : Data) : Data :=
  {| Fax := Fax d; Fay := Fay d; Faz := Faz d;
     Fbx := Fbx d; Fby := Fby d; Fbz := Fbz d;
     ax := ax d; ay := ay d;   az := az d;
     bx := bx d; by' := by' d; bz := bz d;
     cx := vx c; cy := vy c;   cz := vz c |}.

End Notebook.


(** The magnitudes for which the [int64] cells above stay exact: every
    product of two such numbers is below [2^60] in absolute value, and the
    sums the cells build from them stay below [2^63]. *)
Definition small (z : Z) : bool := (- 2 ^ 30 <=? z) && (z <=? 2 ^ 30).

Definition small_vec (v : Vec3) : bool := small (vx v) && small (vy v) && small (vz v).

(** The forces and the two offsets of a data set are all [small]. *)
Definition small_data (d : Notebook.Data) : bool :=
  small_vec << Notebook.Fax d, Notebook.Fay d, Notebook.Faz d >>
  && small_vec << Notebook.Fbx d, Notebook.Fby d, Notebook.Fbz d >>
  && small_vec (Notebook.CA d)
  && small_vec (Notebook.CB d).

(** The manual cell's three results as one triple. *)
Definition Mc_manual (d : Notebook.Data) : Vec3 :=
  << Notebook.Mcx d, Notebook.Mcy d, Notebook.Mcz d >>.

Definition Fc_manual (d : Notebook.Data) : Vec3 :=
  << Notebook.Fcx d, Notebook.Fcy d, Notebook.Fcz d >>.

(** ** The force/moment reducer

    The notebook has no function: it applies one computation to literal data.
    The specification names that computation [reduce(reference, loads)] and
    gives it input validation.  The definitions of this module follow the
    specification's data model and algorithm; the lemmas of the last part
    relate [reduce] to the notebook's cells.  Coordinates, forces and moments
    are integers, as all of the notebook's data are, and the sums and
    products are exact. *)

Module Reducer.

(** Modelled from the spec: a Load (section 3), an applied action at a Point.
    The force vector is what the error conditions of section 4.1 require a
    load to supply, so a record can lack it; the moment vector is optional. *)
Record Load : Type := mkLoad {
  position : Vec3;
  force : option Vec3;
  moment : option Vec3
}.

(** Modelled from the spec: the Resultant (section 3), one force and one
    moment vector at the reference point. *)
Record Resultant : Type := mkResultant {
  resultant_force : Vec3;
  resultant_moment : Vec3
}.

(** Modelled from the spec: the error taxonomy of section 7.  A malformed
    record or a vector of another dimension cannot be written with [Vec3]. *)
Inductive Error : Type := InvalidInput.

Inductive Result (A : Type) : Type :=
| Ok (a : A)
| Err (e : Error).

Arguments Ok {A} a.
Arguments Err {A} e.

Definition has_force (l : Load) : bool :=
  match force l with Some _ => true | None => false end.

(** The force of a load that supplies one. *)
Definition force_of (l : Load) : Vec3 :=
  match force l with Some f => f | None => Vec.zero end.

(** Modelled from the spec: the moment vector defaults to the zero vector
    when a point carries only a force. *)
Definition moment_of (l : Load) : Vec3 :=
  match moment l with Some m => m | None => Vec.zero end.

(** Modelled from the spec: the displacement from the reference point to the
    load's point, [P_i - reference]. *)
Definition offset (reference : Vec3) (l : Load) : Vec3 :=
  Vec.sub (position l) reference.

(** Modelled from the spec: one term [(P_i - reference) x F_i] of step 2. *)
Definition offset_moment (reference : Vec3) (l : Load) : Vec3 :=
  Vec.cross (offset reference l) (force_of l).

(** Modelled from the spec: the contract [reduce(reference, loads)] of
    section 4.1, which the notebook does not define.  [InvalidInput] on an
    empty sequence and on a load without force vector; otherwise
    [Fc = sum F_i] and [Mc = sum M_i + sum ((P_i - reference) x F_i)]. *)
Definition reduce (reference : Vec3) (loads : list Load) : Result Resultant :=
  match loads with
  | [] => Err InvalidInput
  | _ :: _ =>
      if forallb has_force loads then
        Ok {| resultant_force := Vec.sum (map force_of loads);
              resultant_moment :=
                Vec.add (Vec.sum (map moment_of loads))
                        (Vec.sum (map (offset_moment reference) loads)) |}
      else Err InvalidInput
  end.

(** The force, respectively the moment, of a result. *)
Definition force_part (r : Result Resultant) : Result Vec3 :=
  match r with Ok x => Ok (resultant_force x) | Err e => Err e end.

Definition moment_part (r : Result Resultant) : Result Vec3 :=
  match r with Ok x => Ok (resultant_moment x) | Err e => Err e end.

(** The sum of two force results, as the expression
    [reduce(..).force + reduce(..).force] evaluates it: a failure of either
    reduction is the failure of the whole. *)
Definition result_add (r1 r2 : Result Vec3) : Result Vec3 :=
  match r1, r2 with
  | Ok u, Ok v => Ok (Vec.add u v)
  | Err e, _ => Err e
  | Ok _, Err e => Err e
  end.

End Reducer.

(** The notebook's two loads as Loads: A carries a force only, B a force and,
    in the second worked example, a moment. *)
Definition load_a (d : Notebook.Data) : Reducer.Load :=
  {| Reducer.position := Notebook.point_a d;
     Reducer.force := Some << Notebook.Fax d, Notebook.Fay d, Notebook.Faz d >>;
     Reducer.moment := None |}.

Definition load_b (d : Notebook.Data) (m : option Vec3) : Reducer.Load :=
  {| Reducer.position := Notebook.point_b d;
     Reducer.force := Some << Notebook.Fbx d, Notebook.Fby d, Notebook.Fbz d >>;
     Reducer.moment := m |}.

(** The record of the second worked example's table taken alone: point B
    with its moment and no force columns. *)
Definition moment_only_b : Reducer.Load :=
  {| Reducer.position := << 0, 800, 1100 >>;
     Reducer.force := None;
     Reducer.moment := Some Notebook.moment_b |}.

(** The loads of exercise 3.3 (points A, B, D and E), all moved to the
    centroid C. *)
Definition exercise33_at_centroid : list Reducer.Load :=
  [ {| Reducer.position := Vec.zero;
       Reducer.force := Some << -1200, 2000, -3000 >>;
       Reducer.moment := Some << 0, 1200000, 0 >> |};
    {| Reducer.position := Vec.zero;
       Reducer.force := Some << 3200, 1200, -1200 >>;
       Reducer.moment := Some << -2500000, 0, 0 >> |};
    {| Reducer.position := Vec.zero;
       Reducer.force := Some << 1800, 3300, 2200 >>;
       Reducer.moment := Some << 3300000, 0, 0 >> |};
    {| Reducer.position := Vec.zero;
       Reducer.force := Some << 3300, 2860, -4280 >>;
       Reducer.moment := Some << 1200000, -3400000, -5600000 >> |} ].

(** ** Variations of the notebook's data *)

(** The same three points under other forces at A and at B. *)
Definition with_forces (fa fb : Vec3) (d : Notebook.Data) : Notebook.Data :=
  {| Notebook.Fax := vx fa; Notebook.Fay := vy fa; Notebook.Faz := vz fa;
     Notebook.Fbx := vx fb; Notebook.Fby := vy fb; Notebook.Fbz := vz fb;
     Notebook.ax := Notebook.ax d; Notebook.ay := Notebook.ay d;
     Notebook.az := Notebook.az d;
     Notebook.bx := Notebook.bx d; Notebook.by' := Notebook.by' d;
     Notebook.bz := Notebook.bz d;
     Notebook.cx := Notebook.cx d; Notebook.cy := Notebook.cy d;
     Notebook.cz := Notebook.cz d |}.

(** Each load point moved along the line of action of its own force: A by
    [k] times the force at A, B by [j] times the force at B. *)
Definition slide (k j : Z) (d : Notebook.Data) : Notebook.Data :=
  {| Notebook.Fax := Notebook.Fax d; Notebook.Fay := Notebook.Fay d;
     Notebook.Faz := Notebook.Faz d;
     Notebook.Fbx := Notebook.Fbx d; Notebook.Fby := Notebook.Fby d;
     Notebook.Fbz := Notebook.Fbz d;
     Notebook.ax := Notebook.ax d + k * Notebook.Fax d;
     Notebook.ay := Notebook.ay d + k * Notebook.Fay d;
     Notebook.az := Notebook.az d + k * Notebook.Faz d;
     Notebook.bx := Notebook.bx d + j * Notebook.Fbx d;
     Notebook.by' := Notebook.by' d + j * Notebook.Fby d;
     Notebook.bz := Notebook.bz d + j * Notebook.Fbz d;
     Notebook.cx := Notebook.cx d; Notebook.cy := Notebook.cy d;
     Notebook.cz := Notebook.cz d |}.

(** The three cells of a triple all fit [int64]: the test of [array]. *)
Definition fits_int64 (v : Vec3) : bool :=
  Numpy.in_int64 (vx v) && Numpy.in_int64 (vy v) && Numpy.in_int64 (vz v).

(** A triple of unbounded integers brought into [int64] cell by cell. *)
Definition wrap_vec (v : Vec3) : Vec3 :=
  << Numpy.wrap64 (vx v), Numpy.wrap64 (vy v), Numpy.wrap64 (vz v) >>.

(** The sum of the two cross products of the moment cell in unbounded
    integers. *)
Definition moment_sum (d : Notebook.Data) : Vec3 :=
  Vec.add
    (Vec.cross (Notebook.CA d) << Notebook.Fax d, Notebook.Fay d, Notebook.Faz d >>)
    (Vec.cross (Notebook.CB d) << Notebook.Fbx d, Notebook.Fby d, Notebook.Fbz d >>).

(** A couple on the worked example's points: opposite forces at A and B. *)
Definition couple_example : Notebook.Data :=
  with_forces << 1000, -500, 0 >> << -1000, 500, 0 >> Notebook.scenario1.

(** The worked example's points under forces that aim away from, and at,
    the centroid. *)
Definition radial_base : Notebook.Data :=
  {| Notebook.Fax := 0; Notebook.Fay := 0; Notebook.Faz := 500;
     Notebook.Fbx := 0; Notebook.Fby := -400; Notebook.Fbz := -550;
     Notebook.ax := 0; Notebook.ay := 0; Notebook.az := 0;
     Notebook.bx := 0; Notebook.by' := 0; Notebook.bz := 0;
     Notebook.cx := 0; Notebook.cy := 0; Notebook.cz := 0 |}.

Definition radial_example : Notebook.Data := slide 3 (-2) radial_base.

(** A data set whose products leave [int64]: A at height [2^40] under a
    force of [2^40] along y. *)
Definition overflow_example : Notebook.Data :=
  {| Notebook.Fax := 0; Notebook.Fay := 2 ^ 40; Notebook.Faz := 0;
     Notebook.Fbx := 3200; Notebook.Fby := 1200; Notebook.Fbz := -1200;
     Notebook.ax := 0; Notebook.ay := 0; Notebook.az := 2 ^ 40;
     Notebook.bx := 0; Notebook.by' := 800; Notebook.bz := 1100;
     Notebook.cx := 0; Notebook.cy := 0; Notebook.cz := 0 |}.

(** Two forces whose x components add up to [2^63], one more than [int64]
    holds. *)
Definition force_overflow_example : Notebook.Data :=
  with_forces << 2 ^ 62, 2000, -3000 >> << 2 ^ 62, 1200, -1200 >> Notebook.scenario1.

(** ** Loads as the data model types them *)





(** * Properties *)

(** ** Vector algebra *)

Lemma vec_eq (u v : Vec3) :
  vx u = vx v -> vy u = vy v -> vz u = vz v -> u = v.
Proof. destruct u, v; simpl; intros; subst; reflexivity. Qed.

Ltac vec_ring :=
  intros; apply vec_eq; simpl; ring.

(** The offsets of the manual cell, unfolded to the coordinates. *)
Ltac unfold_offsets :=
  unfold Notebook.CA, Notebook.CB, Notebook.CAx, Notebook.CAy, Notebook.CAz,
    Notebook.CBx, Notebook.CBy, Notebook.CBz in *.

Lemma add_comm (u v : Vec3) : Vec.add u v = Vec.add v u.
Proof. vec_ring. Qed.

Lemma add_assoc (u v w : Vec3) : Vec.add u (Vec.add v w) = Vec.add (Vec.add u v) w.
Proof. vec_ring. Qed.

Lemma add_zero_l (u : Vec3) : Vec.add Vec.zero u = u.
Proof. vec_ring. Qed.

Lemma add_zero_r (u : Vec3) : Vec.add u Vec.zero = u.
Proof. vec_ring. Qed.

Lemma sub_diag (u : Vec3) : Vec.sub u u = Vec.zero.
Proof. vec_ring. Qed.

Lemma cross_zero_l (f : Vec3) : Vec.cross Vec.zero f = Vec.zero.
Proof. vec_ring. Qed.

Lemma cross_anticomm (a b : Vec3) : Vec.cross a b = Vec.opp (Vec.cross b a).
Proof. vec_ring. Qed.

Lemma sum_perm (us vs : list Vec3) :
  Permutation us vs -> Vec.sum us = Vec.sum vs.
Proof.
  induction 1 as [|x l l' _ IH|x y l|l l' l'' _ IH1 _ IH2]; simpl.
  - reflexivity.
  - now rewrite IH.
  - rewrite !add_assoc. now rewrite (add_comm y x).
  - now rewrite IH1.
Qed.

(** ** Exactness of the [int64] operations on small numbers *)

Lemma wrap64_exact (z : Z) :
  - 2 ^ 63 <= z < 2 ^ 63 -> Numpy.wrap64 z = z.
Proof.
  intros Hz. unfold Numpy.wrap64.
  rewrite Z.mod_small; lia.
Qed.

Lemma wrap64_range (z : Z) : - 2 ^ 63 <= Numpy.wrap64 z < 2 ^ 63.
Proof.
  unfold Numpy.wrap64.
  pose proof (Z.mod_pos_bound (z + 2 ^ 63) (2 ^ 64) ltac:(lia)). lia.
Qed.

Lemma small_spec (z : Z) : small z = true <-> - 2 ^ 30 <= z <= 2 ^ 30.
Proof. unfold small. rewrite andb_true_iff, !Z.leb_le. tauto. Qed.

Lemma small_vec_spec (v : Vec3) :
  small_vec v = true <->
  (- 2 ^ 30 <= vx v <= 2 ^ 30) /\ (- 2 ^ 30 <= vy v <= 2 ^ 30) /\ (- 2 ^ 30 <= vz v <= 2 ^ 30).
Proof. unfold small_vec. rewrite !andb_true_iff, !small_spec. tauto. Qed.

Lemma small_mul (x y : Z) :
  - 2 ^ 30 <= x <= 2 ^ 30 -> - 2 ^ 30 <= y <= 2 ^ 30 ->
  - 2 ^ 60 <= x * y <= 2 ^ 60.
Proof. intros Hx Hy. change (2 ^ 60) with (2 ^ 30 * 2 ^ 30). nia. Qed.

Lemma array_in_range (v : Vec3) :
  - 2 ^ 63 <= vx v < 2 ^ 63 -> - 2 ^ 63 <= vy v < 2 ^ 63 -> - 2 ^ 63 <= vz v < 2 ^ 63 ->
  Numpy.array v = Some v.
Proof.
  intros Hx Hy Hz. unfold Numpy.array, Numpy.in_int64, Numpy.int64_min, Numpy.int64_max.
  replace (_ && _ && _) with true; [reflexivity|].
  symmetry. rewrite !andb_true_iff, !Z.leb_le. lia.
Qed.

Lemma array_small (v : Vec3) : small_vec v = true -> Numpy.array v = Some v.
Proof.
  intros H. apply small_vec_spec in H. apply array_in_range; lia.
Qed.

Lemma mul64_exact (x y : Z) :
  - 2 ^ 30 <= x <= 2 ^ 30 -> - 2 ^ 30 <= y <= 2 ^ 30 -> Numpy.mul64 x y = x * y.
Proof.
  intros Hx Hy. pose proof (small_mul x y Hx Hy).
  apply wrap64_exact. lia.
Qed.

(** On small arrays numpy's [cross] is the exact cross product, and each of
    its components is at most [2^61] in absolute value. *)
Lemma cross_exact (a b : Vec3) :
  small_vec a = true -> small_vec b = true ->
  Numpy.cross a b = Vec.cross a b /\
  (- 2 ^ 61 <= vx (Vec.cross a b) <= 2 ^ 61) /\
  (- 2 ^ 61 <= vy (Vec.cross a b) <= 2 ^ 61) /\
  (- 2 ^ 61 <= vz (Vec.cross a b) <= 2 ^ 61).
Proof.
  intros Ha Hb.
  apply small_vec_spec in Ha; destruct Ha as (Hax & Hay & Haz).
  apply small_vec_spec in Hb; destruct Hb as (Hbx & Hby & Hbz).
  pose proof (small_mul _ _ Hay Hbz). pose proof (small_mul _ _ Haz Hby).
  pose proof (small_mul _ _ Haz Hbx). pose proof (small_mul _ _ Hax Hbz).
  pose proof (small_mul _ _ Hax Hby). pose proof (small_mul _ _ Hay Hbx).
  unfold Numpy.cross, Numpy.sub64, Vec.cross; simpl.
  rewrite !mul64_exact by assumption.
  rewrite !wrap64_exact by lia.
  repeat split; lia.
Qed.

Lemma add_exact (u v : Vec3) :
  - 2 ^ 63 <= vx u + vx v < 2 ^ 63 ->
  - 2 ^ 63 <= vy u + vy v < 2 ^ 63 ->
  - 2 ^ 63 <= vz u + vz v < 2 ^ 63 ->
  Numpy.add u v = Vec.add u v.
Proof.
  intros Hx Hy Hz. unfold Numpy.add, Numpy.add64, Vec.add.
  rewrite !wrap64_exact by lia. reflexivity.
Qed.

(** The arrays of a small data set. *)
Lemma small_data_spec (d : Notebook.Data) :
  small_data d = true ->
  Notebook.Fa d = Some << Notebook.Fax d, Notebook.Fay d, Notebook.Faz d >> /\
  Notebook.Fb d = Some << Notebook.Fbx d, Notebook.Fby d, Notebook.Fbz d >> /\
  Numpy.array (Notebook.CA d) = Some (Notebook.CA d) /\
  Numpy.array (Notebook.CB d) = Some (Notebook.CB d) /\
  small_vec << Notebook.Fax d, Notebook.Fay d, Notebook.Faz d >> = true /\
  small_vec << Notebook.Fbx d, Notebook.Fby d, Notebook.Fbz d >> = true /\
  small_vec (Notebook.CA d) = true /\
  small_vec (Notebook.CB d) = true.
Proof.
  unfold small_data. rewrite !andb_true_iff. intros [[[Ha Hb] Hca] Hcb].
  unfold Notebook.Fa, Notebook.Fb.
  rewrite !array_small by assumption. tauto.
Qed.

(** The vectorised force cell on a small data set: the exact sum. *)
Lemma Fc_exact (d : Notebook.Data) :
  small_data d = true ->
  Notebook.Fc d =
    Some (Vec.add << Notebook.Fax d, Notebook.Fay d, Notebook.Faz d >>
                  << Notebook.Fbx d, Notebook.Fby d, Notebook.Fbz d >>).
Proof.
  intros H. destruct (small_data_spec d H) as (Ha & Hb & _ & _ & Sa & Sb & _ & _).
  unfold Notebook.Fc. rewrite Ha, Hb. simpl. f_equal.
  apply small_vec_spec in Sa, Sb. simpl in Sa, Sb.
  apply add_exact; simpl; lia.
Qed.

(** The vectorised moment cell on a small data set: the exact sum of the two
    exact cross products, with components below [2^62] in absolute value. *)
Lemma Mc_exact (d : Notebook.Data) :
  small_data d = true ->
  let mc := Vec.add
      (Vec.cross (Notebook.CA d) << Notebook.Fax d, Notebook.Fay d, Notebook.Faz d >>)
      (Vec.cross (Notebook.CB d) << Notebook.Fbx d, Notebook.Fby d, Notebook.Fbz d >>) in
  Notebook.Mc d = Some mc /\
  (- 2 ^ 62 <= vx mc <= 2 ^ 62) /\ (- 2 ^ 62 <= vy mc <= 2 ^ 62) /\ (- 2 ^ 62 <= vz mc <= 2 ^ 62).
Proof.
  intros H. destruct (small_data_spec d H) as (Ha & Hb & Hca & Hcb & Sa & Sb & Sca & Scb).
  destruct (cross_exact _ _ Sca Sa) as (Ea & Ax & Ay & Az).
  destruct (cross_exact _ _ Scb Sb) as (Eb & Bx & By & Bz).
  cbv zeta. unfold Notebook.Mc. rewrite Hca, Ha, Hcb, Hb. cbn [obind].
  rewrite Ea, Eb. rewrite add_exact by lia.
  split; [reflexivity|]. unfold Vec.add; cbn [vx vy vz]. lia.
Qed.

(** The cell that adds a moment at B, on a small data set and a moment of
    components at most [2^61] in absolute value: the moment is added as it is. *)
Lemma Mc_new_exact (d : Notebook.Data) (m : Vec3) :
  small_data d = true ->
  (- 2 ^ 61 <= vx m <= 2 ^ 61) -> (- 2 ^ 61 <= vy m <= 2 ^ 61) -> (- 2 ^ 61 <= vz m <= 2 ^ 61) ->
  exists mc, Notebook.Mc d = Some mc /\ Notebook.Mc_new d m = Some (Vec.add mc m).
Proof.
  intros H Hx Hy Hz. destruct (Mc_exact d H) as (E & Bx & By & Bz).
  cbv zeta in *. eexists; split; [exact E|].
  unfold Notebook.Mc_new. rewrite E. cbn [obind].
  rewrite array_in_range by lia. cbn [obind].
  rewrite add_exact by lia. reflexivity.
Qed.

(** ** The worked examples *)

(** C1: on the data of worked scenario 1 the offsets are CA = (0,0,1500) and
    CB = (0,800,1100), the vectorised cell yields
    Mc = (-5280000, 1720000, -2560000), and that is the sum of the two cross
    products under the specification's cross product formula. *)
Theorem scenario1_Mc :
  Notebook.CA Notebook.scenario1 = << 0, 0, 1500 >> /\
  Notebook.CB Notebook.scenario1 = << 0, 800, 1100 >> /\
  Notebook.Mc Notebook.scenario1 = Some << -5280000, 1720000, -2560000 >> /\
  Vec.add (Vec.cross << 0, 0, 1500 >> << -1200, 2000, -3000 >>)
          (Vec.cross << 0, 800, 1100 >> << 3200, 1200, -1200 >>)
  = << -5280000, 1720000, -2560000 >>.
Proof. repeat split. Qed.

(** C3: on the data of worked scenario 1 the resultant force is
    (2000, 3200, -4200), both by the manual component sums Fcx, Fcy, Fcz and
    by the vector addition Fc = Fa + Fb, and it is the componentwise sum of
    the two applied forces. *)
Theorem scenario1_Fc :
  Fc_manual Notebook.scenario1 = << 2000, 3200, -4200 >> /\
  Notebook.Fc Notebook.scenario1 = Some << 2000, 3200, -4200 >> /\
  Vec.add << -1200, 2000, -3000 >> << 3200, 1200, -1200 >> = << 2000, 3200, -4200 >>.
Proof. repeat split. Qed.

(** C4: worked scenario 2.  Adding the moment (-1500000, 2000000, -3200000)
    at point B turns Mc into Mc + (-1500000, 2000000, -3200000), which is
    (-6780000, 3720000, -5760000): the moment is added as it is, no offset
    enters.  The force cells do not read the moment and still give
    (2000, 3200, -4200). *)
Theorem scenario2_Mc_new :
  Notebook.Mc Notebook.scenario1 = Some << -5280000, 1720000, -2560000 >> /\
  Notebook.Mc_new Notebook.scenario1 Notebook.moment_b
    = Some (Vec.add << -5280000, 1720000, -2560000 >> << -1500000, 2000000, -3200000 >>) /\
  Notebook.Mc_new Notebook.scenario1 Notebook.moment_b
    = Some << -6780000, 3720000, -5760000 >> /\
  Notebook.Fc Notebook.scenario1 = Some << 2000, 3200, -4200 >> /\
  Fc_manual Notebook.scenario1 = << 2000, 3200, -4200 >>.
Proof. repeat split. Qed.

(** ** The two moment cells *)

(** What the manual cell leaves out: on a small data set the vectorised cell
    is the manual one plus the terms in CAx, CAy and CBx. *)
Lemma Mc_manual_gap (d : Notebook.Data) :
  small_data d = true ->
  Notebook.Mc d =
    Some (Vec.add (Mc_manual d)
            << Notebook.CAy d * Notebook.Faz d,
               - (Notebook.CAx d * Notebook.Faz d) - Notebook.CBx d * Notebook.Fbz d,
               Notebook.CAx d * Notebook.Fay d - Notebook.CAy d * Notebook.Fax d
                 + Notebook.CBx d * Notebook.Fby d >>).
Proof.
  intros H. destruct (Mc_exact d H) as (E & _). cbv zeta in E. rewrite E. f_equal.
  apply vec_eq; unfold Mc_manual, Notebook.Mcx, Notebook.Mcy, Notebook.Mcz; simpl; ring.
Qed.

(** C2, as amended: the manual moment cell and the vectorised one give the
    same vector on every small data set in which the offset of A has no x and
    no y component and the offset of B has no x component, as in worked
    scenario 1. *)
Theorem manual_Mc_agrees (d : Notebook.Data) :
  small_data d = true ->
  Notebook.CAx d = 0 -> Notebook.CAy d = 0 -> Notebook.CBx d = 0 ->
  Notebook.Mc d = Some (Mc_manual d).
Proof.
  intros H Hax Hay Hbx. rewrite (Mc_manual_gap d H). f_equal.
  rewrite Hax, Hay, Hbx. apply vec_eq; simpl; ring.
Qed.

Lemma manual_Mc_agrees_scenario1 :
  small_data Notebook.scenario1 = true /\
  Notebook.CAx Notebook.scenario1 = 0 /\
  Notebook.CAy Notebook.scenario1 = 0 /\
  Notebook.CBx Notebook.scenario1 = 0 /\
  Notebook.Mc Notebook.scenario1 = Some (Mc_manual Notebook.scenario1).
Proof.
  do 4 (split; [reflexivity|]).
  apply (manual_Mc_agrees Notebook.scenario1); reflexivity.
Defined.

(** C2, as stated, fails on the data of exercise 3.1: the offset of D has a
    y component, and the two cells differ in their x and z components. *)
Lemma manual_Mc_differs_exercise31 :
  Notebook.Mc Notebook.exercise31 = Some << -9237500, 6175000, -850000 >> /\
  Mc_manual Notebook.exercise31 = << -7147500, 6175000, -2560000 >> /\
  Notebook.Mc Notebook.exercise31 <> Some (Mc_manual Notebook.exercise31).
Proof. repeat split. discriminate. Qed.

(** C5: each cross product of the vectorised moment cell has the displacement
    from the reference point to the load's point, P - reference, on the left
    and the force on the right. *)
Theorem Mc_offset_cross_force (d : Notebook.Data) :
  small_data d = true ->
  Notebook.CA d = Vec.sub (Notebook.point_a d) (Notebook.point_c d) /\
  Notebook.CB d = Vec.sub (Notebook.point_b d) (Notebook.point_c d) /\
  Notebook.Mc d =
    Some (Vec.add
      (Vec.cross (Vec.sub (Notebook.point_a d) (Notebook.point_c d))
                 << Notebook.Fax d, Notebook.Fay d, Notebook.Faz d >>)
      (Vec.cross (Vec.sub (Notebook.point_b d) (Notebook.point_c d))
                 << Notebook.Fbx d, Notebook.Fby d, Notebook.Fbz d >>)).
Proof.
  intros H. split; [reflexivity|]. split; [reflexivity|].
  destruct (Mc_exact d H) as (E & _). exact E.
Qed.

Lemma Mc_offset_cross_force_translated :
  let d := Notebook.translated << 100, -200, 300 >> Notebook.scenario1 in
  small_data d = true /\
  Notebook.point_c d = << 100, -200, 300 >> /\
  Notebook.Mc d =
    Some (Vec.add
      (Vec.cross (Vec.sub (Notebook.point_a d) (Notebook.point_c d))
                 << Notebook.Fax d, Notebook.Fay d, Notebook.Faz d >>)
      (Vec.cross (Vec.sub (Notebook.point_b d) (Notebook.point_c d))
                 << Notebook.Fbx d, Notebook.Fby d, Notebook.Fbz d >>)).
Proof.
  cbv zeta. split; [reflexivity|]. split; [reflexivity|].
  apply (Mc_offset_cross_force (Notebook.translated << 100, -200, 300 >> Notebook.scenario1)).
  reflexivity.
Defined.

(** The order of the operands matters: with the force on the left the
    moment of worked scenario 1 comes out negated. *)
Lemma reversed_operands_scenario1 :
  Vec.add (Vec.cross << -1200, 2000, -3000 >> (Notebook.CA Notebook.scenario1))
          (Vec.cross << 3200, 1200, -1200 >> (Notebook.CB Notebook.scenario1))
  = << 5280000, -1720000, 2560000 >>.
Proof. reflexivity. Qed.

(** Neither force cell reads the centroid. *)
Lemma Fc_ignores_centroid (d : Notebook.Data) (c1 c2 : Vec3) :
  Notebook.Fc (Notebook.with_centroid c1 d) = Notebook.Fc (Notebook.with_centroid c2 d) /\
  Fc_manual (Notebook.with_centroid c1 d) = Fc_manual (Notebook.with_centroid c2 d).
Proof. split; reflexivity. Qed.

(** ** The reducer *)

Import Reducer.

Create Rewrite HintDb vec.
#[local] Hint Rewrite add_zero_l add_zero_r sub_diag cross_zero_l : vec.

(** A non-empty sequence of loads that all supply a force reduces to the two
    sums of the specification. *)
Lemma reduce_ok (reference : Vec3) (loads : list Load) :
  loads <> [] -> forallb has_force loads = true ->
  reduce reference loads =
    Ok {| resultant_force := Vec.sum (map force_of loads);
          resultant_moment :=
            Vec.add (Vec.sum (map moment_of loads))
                    (Vec.sum (map (offset_moment reference) loads)) |}.
Proof.
  intros Hne Hf. destruct loads as [|l ls]; [congruence|].
  unfold reduce. now rewrite Hf.
Qed.

Lemma forallb_perm {A : Type} (p : A -> bool) (l l' : list A) :
  Permutation l l' -> forallb p l = forallb p l'.
Proof.
  induction 1 as [|x l l' _ IH|x y l|l l' l'' _ IH1 _ IH2]; simpl.
  - reflexivity.
  - now rewrite IH.
  - now rewrite !andb_assoc, (andb_comm (p y) (p x)).
  - now rewrite IH1.
Qed.

Lemma has_force_spec (l : Load) : has_force l = false <-> force l = None.
Proof. unfold has_force. destruct (force l); split; congruence. Qed.

Lemma forallb_has_force_false (loads : list Load) :
  forallb has_force loads = false <-> Exists (fun l => force l = None) loads.
Proof.
  induction loads as [|l ls IH]; simpl.
  - split; [discriminate|]. intros H; inversion H.
  - rewrite andb_false_iff, has_force_spec, IH. split.
    + intros [H|H]; [now left | now right].
    + intros H; inversion H; subst; tauto.
Qed.

(** With every load at the reference point, every cross product term is the
    zero vector, and so is their sum. *)
Lemma offset_moment_at_reference (reference : Vec3) (l : Load) :
  position l = reference -> offset_moment reference l = Vec.zero.
Proof.
  intros <-. unfold offset_moment, offset. now autorewrite with vec.
Qed.

Lemma sum_zero (vs : list Vec3) :
  Forall (fun v => v = Vec.zero) vs -> Vec.sum vs = Vec.zero.
Proof.
  induction 1 as [|v vs Hv _ IH]; simpl; [reflexivity|].
  rewrite Hv, IH. now autorewrite with vec.
Qed.

(** C6: zero-offset identity.  When every load sits at the reference point,
    every cross product term is the zero vector, and whenever reduce returns
    a resultant its moment is the sum of the loads' own moments; it does
    return one when the sequence is not empty and every load supplies a
    force. *)
Theorem zero_offset_identity (reference : Vec3) (loads : list Load) :
  Forall (fun l => position l = reference) loads ->
  Forall (fun l => offset_moment reference l = Vec.zero) loads /\
  (forall R, reduce reference loads = Ok R ->
             resultant_moment R = Vec.sum (map moment_of loads)) /\
  (loads <> [] -> forallb has_force loads = true ->
   exists R, reduce reference loads = Ok R).
Proof.
  intros Hall.
  assert (Hz : Forall (fun l => offset_moment reference l = Vec.zero) loads).
  { eapply Forall_impl; [|exact Hall]. intros l Hp.
    now apply offset_moment_at_reference. }
  split; [exact Hz|]. split.
  - intros R HR. destruct loads as [|l ls]; [discriminate|].
    unfold reduce in HR. destruct (forallb has_force (l :: ls)); [|discriminate].
    injection HR as <-. cbn [resultant_moment].
    change (Vec.add (Vec.sum (map moment_of (l :: ls)))
                    (Vec.sum (map (offset_moment reference) (l :: ls)))
            = Vec.sum (map moment_of (l :: ls))).
    rewrite (sum_zero (map (offset_moment reference) (l :: ls))).
    + now autorewrite with vec.
    + now apply Forall_map.
  - intros Hne Hf. rewrite (reduce_ok reference loads Hne Hf). now eexists.
Qed.

Lemma zero_offset_identity_exercise33 :
  Forall (fun l => position l = Vec.zero) exercise33_at_centroid /\
  reduce Vec.zero exercise33_at_centroid =
    Ok {| resultant_force := << 7100, 9360, -6280 >>;
          resultant_moment := << 2000000, -2200000, -5600000 >> |} /\
  << 2000000, -2200000, -5600000 >> = Vec.sum (map moment_of exercise33_at_centroid).
Proof.
  assert (Hall : Forall (fun l => position l = Vec.zero) exercise33_at_centroid).
  { repeat constructor. }
  split; [exact Hall|]. split; [reflexivity|].
  exact (proj1 (proj2 (zero_offset_identity Vec.zero exercise33_at_centroid Hall))
           _ eq_refl).
Defined.

(** C7: reference invariance of force.  Whatever the loads, two reference
    points give the same outcome as far as the force goes: the same
    resultant force, or the same refusal. *)
Theorem force_reference_invariant (loads : list Load) (r1 r2 : Vec3) :
  force_part (reduce r1 loads) = force_part (reduce r2 loads).
Proof.
  destruct loads as [|l ls]; [reflexivity|].
  unfold reduce. destruct (forallb has_force (l :: ls)); reflexivity.
Qed.

(** C8: additivity of the resultant force.  The force of reducing two loads
    is the sum of the forces of reducing each alone, at any reference point;
    when both loads supply a force the three reductions succeed. *)
Theorem force_additive (reference : Vec3) (L1 L2 : Load) :
  force_part (reduce reference [L1; L2])
  = result_add (force_part (reduce reference [L1]))
               (force_part (reduce reference [L2])) /\
  (has_force L1 = true -> has_force L2 = true ->
   exists f1 f2,
     force_part (reduce reference [L1]) = Ok f1 /\
     force_part (reduce reference [L2]) = Ok f2 /\
     force_part (reduce reference [L1; L2]) = Ok (Vec.add f1 f2)).
Proof.
  unfold reduce, forallb. split.
  - destruct (has_force L1), (has_force L2); cbn; try reflexivity.
    f_equal. now autorewrite with vec.
  - intros -> ->. cbn. do 2 eexists. do 2 (split; [reflexivity|]).
    f_equal. now autorewrite with vec.
Qed.

Lemma force_additive_scenario1 :
  force_part (reduce Vec.zero [load_a Notebook.scenario1; load_b Notebook.scenario1 None])
  = result_add (Ok << -1200, 2000, -3000 >>) (Ok << 3200, 1200, -1200 >>).
Proof.
  exact (proj1 (force_additive Vec.zero (load_a Notebook.scenario1)
                  (load_b Notebook.scenario1 None))).
Defined.

(** C9: order independence.  A permutation of the loads leaves the outcome
    of reduce unchanged: the same resultant force and moment, or the same
    refusal. *)
Theorem reduce_permutation (reference : Vec3) (loads loads' : list Load) :
  Permutation loads loads' ->
  reduce reference loads = reduce reference loads'.
Proof.
  intros HP.
  destruct loads as [|l ls].
  - apply Permutation_nil in HP. now subst.
  - destruct loads' as [|l' ls'].
    + apply Permutation_sym, Permutation_nil in HP. discriminate.
    + unfold reduce. rewrite (forallb_perm has_force _ _ HP).
      destruct (forallb has_force (l' :: ls')); [|reflexivity].
      rewrite (sum_perm _ _ (Permutation_map force_of HP)).
      rewrite (sum_perm _ _ (Permutation_map moment_of HP)).
      rewrite (sum_perm _ _ (Permutation_map (offset_moment reference) HP)).
      reflexivity.
Qed.

Lemma reduce_permutation_scenario2 :
  Permutation [load_a Notebook.scenario1; load_b Notebook.scenario1 (Some Notebook.moment_b)]
              [load_b Notebook.scenario1 (Some Notebook.moment_b); load_a Notebook.scenario1] /\
  reduce Vec.zero [load_a Notebook.scenario1; load_b Notebook.scenario1 (Some Notebook.moment_b)]
  = reduce Vec.zero [load_b Notebook.scenario1 (Some Notebook.moment_b); load_a Notebook.scenario1].
Proof.
  split; [apply perm_swap|].
  exact (reduce_permutation Vec.zero _ _ (perm_swap _ _ [])).
Defined.

(** On input records, reduce refuses the empty sequence and the sequences in
    which some record lacks its force vector, and no other. *)
Lemma reduce_refuses (reference : Vec3) (loads : list Load) :
  reduce reference loads = Err InvalidInput <->
  loads = [] \/ Exists (fun l => force l = None) loads.
Proof.
  destruct loads as [|l ls].
  - split; [now left | reflexivity].
  - unfold reduce. destruct (forallb has_force (l :: ls)) eqn:Hf.
    + split; [discriminate|]. intros [H|H]; [discriminate|].
      apply forallb_has_force_false in H. congruence.
    + split; [|reflexivity]. intros _. right.
      now apply forallb_has_force_false.
Qed.




(** An input record without force vector, the second error condition of
    section 4.1, is outside the data model: as a record it is refused. *)
Lemma record_without_force_refused :
  reduce Vec.zero [moment_only_b] = Err InvalidInput.
Proof. reflexivity. Qed.

(** ** The reducer and the notebook *)

(** On a small data set, reducing the notebook's two loads to the centroid
    gives what the two vectorised cells give. *)
Lemma reduce_notebook (d : Notebook.Data) :
  small_data d = true ->
  exists fc mc,
    Notebook.Fc d = Some fc /\ Notebook.Mc d = Some mc /\
    reduce (Notebook.point_c d) [load_a d; load_b d None]
    = Ok {| resultant_force := fc; resultant_moment := mc |}.
Proof.
  intros H. destruct (Mc_exact d H) as (E & _). cbv zeta in E.
  do 2 eexists. split; [exact (Fc_exact d H)|]. split; [exact E|].
  unfold reduce, moment_of, force_of, offset_moment, offset, load_a, load_b; simpl.
  f_equal. f_equal; apply vec_eq; simpl; unfold_offsets; ring.
Qed.

(** The same with a moment at B: the cell [Mc_new] gives the resultant
    moment of the two loads, B now carrying the moment. *)
Lemma reduce_notebook_moment (d : Notebook.Data) (m : Vec3) :
  small_data d = true -> small_vec m = true ->
  exists fc mc,
    Notebook.Fc d = Some fc /\ Notebook.Mc_new d m = Some mc /\
    reduce (Notebook.point_c d) [load_a d; load_b d (Some m)]
    = Ok {| resultant_force := fc; resultant_moment := mc |}.
Proof.
  intros H Hm. apply small_vec_spec in Hm.
  destruct (Mc_exact d H) as (E & _). cbv zeta in E.
  destruct (Mc_new_exact d m H) as (mc & E' & En); try lia.
  rewrite E in E'. injection E' as <-.
  do 2 eexists. split; [exact (Fc_exact d H)|]. split; [exact En|].
  unfold reduce, moment_of, force_of, offset_moment, offset, load_a, load_b; simpl.
  f_equal. f_equal; apply vec_eq; simpl; unfold_offsets; ring.
Qed.

(** The notebook's cells with both points on the centroid: the moment cell
    gives the zero vector, and adding a moment at B gives that moment. *)
Lemma notebook_zero_offset (d : Notebook.Data) (m : Vec3) :
  small_data d = true -> small_vec m = true ->
  Notebook.point_a d = Notebook.point_c d ->
  Notebook.point_b d = Notebook.point_c d ->
  Notebook.Mc d = Some Vec.zero /\ Notebook.Mc_new d m = Some m.
Proof.
  intros H Hm Ha Hb. apply small_vec_spec in Hm.
  destruct (Mc_exact d H) as (E & _). cbv zeta in E.
  destruct (Mc_new_exact d m H) as (mc & E' & En); try lia.
  rewrite E in E'. injection E' as <-.
  assert (Z0 : Vec.add
      (Vec.cross (Notebook.CA d) << Notebook.Fax d, Notebook.Fay d, Notebook.Faz d >>)
      (Vec.cross (Notebook.CB d) << Notebook.Fbx d, Notebook.Fby d, Notebook.Fbz d >>)
      = Vec.zero).
  { unfold Notebook.point_a, Notebook.point_b, Notebook.point_c in Ha, Hb.
    injection Ha as Hax Hay Haz. injection Hb as Hbx Hby Hbz.
    unfold_offsets.
    rewrite Hax, Hay, Haz, Hbx, Hby, Hbz. apply vec_eq; simpl; ring. }
  rewrite Z0 in E, En. split; [exact E|]. rewrite En. f_equal. apply add_zero_l.
Qed.

(** Moving the reference point does change the resultant moment: worked
    scenario 1 reduced to the centroid and to point A. *)
Lemma moment_depends_on_reference :
  moment_part (reduce Vec.zero [load_a Notebook.scenario1; load_b Notebook.scenario1 None])
    = Ok << -5280000, 1720000, -2560000 >> /\
  moment_part (reduce << 0, 0, 1500 >> [load_a Notebook.scenario1; load_b Notebook.scenario1 None])
    = Ok << -480000, -1280000, -2560000 >>.
Proof. split; reflexivity. Qed.

(** The two worked examples through reduce: the values of the cells. *)
Lemma reduce_scenarios :
  reduce Vec.zero [load_a Notebook.scenario1; load_b Notebook.scenario1 None]
    = Ok {| resultant_force := << 2000, 3200, -4200 >>;
            resultant_moment := << -5280000, 1720000, -2560000 >> |} /\
  reduce Vec.zero [load_a Notebook.scenario1; load_b Notebook.scenario1 (Some Notebook.moment_b)]
    = Ok {| resultant_force := << 2000, 3200, -4200 >>;
            resultant_moment := << -6780000, 3720000, -5760000 >> |}.
Proof. split; reflexivity. Qed.

(** * Further properties of the cells *)

(** ** Wrap-around *)

Lemma wrap64_mod (z : Z) : Numpy.wrap64 z mod 2 ^ 64 = z mod 2 ^ 64.
Proof.
  unfold Numpy.wrap64.
  rewrite Zminus_mod, Z.mod_mod by lia.
  rewrite <- Zminus_mod. f_equal. ring.
Qed.

Lemma wrap64_congr (a b : Z) :
  a mod 2 ^ 64 = b mod 2 ^ 64 -> Numpy.wrap64 a = Numpy.wrap64 b.
Proof.
  intros H. unfold Numpy.wrap64. f_equal.
  rewrite (Z.add_mod a), (Z.add_mod b), H by lia. reflexivity.
Qed.

Lemma wrap64_add (a b : Z) :
  Numpy.wrap64 (Numpy.wrap64 a + Numpy.wrap64 b) = Numpy.wrap64 (a + b).
Proof.
  apply wrap64_congr.
  rewrite Z.add_mod, !wrap64_mod, <- Z.add_mod by lia. reflexivity.
Qed.

Lemma wrap64_sub (a b : Z) :
  Numpy.wrap64 (Numpy.wrap64 a - Numpy.wrap64 b) = Numpy.wrap64 (a - b).
Proof.
  apply wrap64_congr.
  rewrite Zminus_mod, !wrap64_mod, <- Zminus_mod. reflexivity.
Qed.

Lemma in_int64_spec (z : Z) : Numpy.in_int64 z = true <-> - 2 ^ 63 <= z < 2 ^ 63.
Proof.
  unfold Numpy.in_int64, Numpy.int64_min, Numpy.int64_max.
  rewrite andb_true_iff, !Z.leb_le. lia.
Qed.

Lemma fits_int64_spec (v : Vec3) :
  fits_int64 v = true <->
  (- 2 ^ 63 <= vx v < 2 ^ 63) /\ (- 2 ^ 63 <= vy v < 2 ^ 63) /\ (- 2 ^ 63 <= vz v < 2 ^ 63).
Proof. unfold fits_int64. rewrite !andb_true_iff, !in_int64_spec. tauto. Qed.

Lemma array_fits (v : Vec3) :
  Numpy.array v = if fits_int64 v then Some v else None.
Proof. reflexivity. Qed.

(** numpy's cross product is the exact one brought into [int64]. *)
Lemma cross_wraps (a b : Vec3) : Numpy.cross a b = wrap_vec (Vec.cross a b).
Proof.
  unfold Numpy.cross, Numpy.sub64, Numpy.mul64, wrap_vec, Vec.cross; cbn [vx vy vz].
  now rewrite !wrap64_sub.
Qed.

Lemma add_wraps (u v : Vec3) :
  Numpy.add (wrap_vec u) (wrap_vec v) = wrap_vec (Vec.add u v).
Proof.
  unfold Numpy.add, Numpy.add64, wrap_vec, Vec.add; cbn [vx vy vz].
  now rewrite !wrap64_add.
Qed.

(** X1: when the six force components fit [int64], the vectorised force
    cell yields the manual sums brought into [int64], and it yields the
    manual sums themselves exactly when the three sums fit [int64] too. *)
Theorem Fc_agrees_iff (d : Notebook.Data) :
  fits_int64 << Notebook.Fax d, Notebook.Fay d, Notebook.Faz d >> = true ->
  fits_int64 << Notebook.Fbx d, Notebook.Fby d, Notebook.Fbz d >> = true ->
  Notebook.Fc d = Some (wrap_vec (Fc_manual d)) /\
  (Notebook.Fc d = Some (Fc_manual d) <-> fits_int64 (Fc_manual d) = true).
Proof.
  intros Ha Hb.
  assert (E : Notebook.Fc d = Some (wrap_vec (Fc_manual d))).
  { unfold Notebook.Fc, Notebook.Fa, Notebook.Fb. rewrite !array_fits, Ha, Hb.
    reflexivity. }
  split; [exact E|]. rewrite E. split.
  - intros H. injection H as Hx Hy Hz.
    apply fits_int64_spec. unfold Fc_manual; cbn [vx vy vz].
    rewrite <- Hx, <- Hy, <- Hz.
    repeat split; apply wrap64_range.
  - intros H. apply fits_int64_spec in H. f_equal.
    unfold wrap_vec. apply vec_eq; cbn [vx vy vz]; apply wrap64_exact; lia.
Qed.

Lemma Fc_agrees_iff_overflow_example :
  fits_int64 << 2 ^ 62, 2000, -3000 >> = true /\
  fits_int64 << 2 ^ 62, 1200, -1200 >> = true /\
  Fc_manual force_overflow_example = << 2 ^ 63, 3200, -4200 >> /\
  Notebook.Fc force_overflow_example = Some << - 2 ^ 63, 3200, -4200 >> /\
  (Notebook.Fc force_overflow_example = Some (Fc_manual force_overflow_example) <->
   fits_int64 (Fc_manual force_overflow_example) = true).
Proof.
  do 3 (split; [reflexivity|]).
  exact (Fc_agrees_iff force_overflow_example eq_refl eq_refl).
Defined.

(** X2: whenever the vectorised moment cell yields an array, it is the sum of
    the two exact cross products brought into [int64] once, whatever wrapped
    in between. *)
Theorem Mc_wraps (d : Notebook.Data) (v : Vec3) :
  Notebook.Mc d = Some v ->
  v = wrap_vec (moment_sum d) /\ fits_int64 v = true.
Proof.
  unfold Notebook.Mc, Notebook.Fa, Notebook.Fb. rewrite !array_fits.
  destruct (fits_int64 (Notebook.CA d)); [|discriminate].
  destruct (fits_int64 << Notebook.Fax d, Notebook.Fay d, Notebook.Faz d >>);
    [|discriminate].
  destruct (fits_int64 (Notebook.CB d)); [|discriminate].
  destruct (fits_int64 << Notebook.Fbx d, Notebook.Fby d, Notebook.Fbz d >>);
    [|discriminate].
  cbn [obind]. intros H. injection H as <-.
  rewrite !cross_wraps, add_wraps. split; [reflexivity|].
  apply fits_int64_spec. unfold wrap_vec; cbn [vx vy vz].
  repeat split; apply wrap64_range.
Qed.

Lemma Mc_wraps_overflow_example :
  Notebook.Mc overflow_example = Some << -2280000, 3520000, -2560000 >> /\
  moment_sum overflow_example = << - 2 ^ 80 - 2280000, 3520000, -2560000 >> /\
  << -2280000, 3520000, -2560000 >> = wrap_vec (moment_sum overflow_example).
Proof.
  split; [reflexivity|]. split; [reflexivity|].
  exact (proj1 (Mc_wraps overflow_example _ eq_refl)).
Defined.

(** ** The moment cells and the geometry *)

Lemma CA_translated (t : Vec3) (d : Notebook.Data) :
  Notebook.CA (Notebook.translated t d) = Notebook.CA d.
Proof. apply vec_eq; unfold_offsets; simpl; ring. Qed.

Lemma CB_translated (t : Vec3) (d : Notebook.Data) :
  Notebook.CB (Notebook.translated t d) = Notebook.CB d.
Proof. apply vec_eq; unfold_offsets; simpl; ring. Qed.

(** X3: the moment cells read the points through the offsets only: moving
    A, B and the centroid by one and the same vector changes neither the
    manual nor the vectorised moment, nor the moment with a moment added. *)
Theorem Mc_translation_invariant (t : Vec3) (d : Notebook.Data) :
  Mc_manual (Notebook.translated t d) = Mc_manual d /\
  Notebook.Mc (Notebook.translated t d) = Notebook.Mc d /\
  forall m, Notebook.Mc_new (Notebook.translated t d) m = Notebook.Mc_new d m.
Proof.
  assert (HM : Notebook.Mc (Notebook.translated t d) = Notebook.Mc d).
  { unfold Notebook.Mc. now rewrite CA_translated, CB_translated. }
  split; [|split; [exact HM|]].
  - apply vec_eq; unfold Mc_manual, Notebook.Mcx, Notebook.Mcy, Notebook.Mcz;
      unfold_offsets; simpl; ring.
  - intros m. unfold Notebook.Mc_new. now rewrite HM.
Qed.

(** X4: moving the centroid from C to C' adds the moment of the resultant
    force, taken at C, about C': Mc' = Mc + (C - C') x Fc. *)
Theorem Mc_transfer (d : Notebook.Data) (c' : Vec3) :
  small_data d = true -> small_data (Notebook.with_centroid c' d) = true ->
  exists fc mc mc',
    Notebook.Fc d = Some fc /\
    Notebook.Mc d = Some mc /\
    Notebook.Mc (Notebook.with_centroid c' d) = Some mc' /\
    mc' = Vec.add mc (Vec.cross (Vec.sub (Notebook.point_c d) c') fc).
Proof.
  intros H H'.
  destruct (Mc_exact d H) as (E & _).
  destruct (Mc_exact _ H') as (E' & _). cbv zeta in E, E'.
  do 3 eexists. split; [exact (Fc_exact d H)|].
  split; [exact E|]. split; [exact E'|].
  apply vec_eq; unfold_offsets; simpl; ring.
Qed.

Lemma Mc_transfer_scenario1 :
  small_data Notebook.scenario1 = true /\
  small_data (Notebook.with_centroid << 0, 0, 1500 >> Notebook.scenario1) = true /\
  exists fc mc mc',
    Notebook.Fc Notebook.scenario1 = Some fc /\
    Notebook.Mc Notebook.scenario1 = Some mc /\
    Notebook.Mc (Notebook.with_centroid << 0, 0, 1500 >> Notebook.scenario1) = Some mc' /\
    mc' = Vec.add mc (Vec.cross (Vec.sub (Notebook.point_c Notebook.scenario1) << 0, 0, 1500 >>) fc).
Proof.
  do 2 (split; [reflexivity|]).
  exact (Mc_transfer Notebook.scenario1 << 0, 0, 1500 >> eq_refl eq_refl).
Defined.

(** X5: when the two forces cancel (a couple), the moment cell gives the
    same moment wherever the centroid is put. *)
Theorem couple_moment_free (d : Notebook.Data) (c' : Vec3) :
  small_data d = true -> small_data (Notebook.with_centroid c' d) = true ->
  Fc_manual d = Vec.zero ->
  Notebook.Mc (Notebook.with_centroid c' d) = Notebook.Mc d.
Proof.
  intros H H' H0.
  destruct (Mc_exact d H) as (E & _).
  destruct (Mc_exact _ H') as (E' & _). cbv zeta in E, E'.
  rewrite E, E'. f_equal.
  unfold Fc_manual, Notebook.Fcx, Notebook.Fcy, Notebook.Fcz, Vec.zero in H0.
  injection H0 as Hx Hy Hz.
  assert (Ex : Notebook.Fbx d = - Notebook.Fax d) by lia.
  assert (Ey : Notebook.Fby d = - Notebook.Fay d) by lia.
  assert (Ez : Notebook.Fbz d = - Notebook.Faz d) by lia.
  apply vec_eq; unfold_offsets; simpl; rewrite ?Ex, ?Ey, ?Ez; ring.
Qed.

Lemma couple_moment_free_example :
  small_data couple_example = true /\
  small_data (Notebook.with_centroid << 250, -300, 700 >> couple_example) = true /\
  Fc_manual couple_example = Vec.zero /\
  Notebook.Mc couple_example = Some << 200000, 400000, 800000 >> /\
  Notebook.Mc (Notebook.with_centroid << 250, -300, 700 >> couple_example)
  = Notebook.Mc couple_example.
Proof.
  do 4 (split; [reflexivity|]).
  exact (couple_moment_free couple_example << 250, -300, 700 >> eq_refl eq_refl eq_refl).
Defined.

(** X6: a force whose line of action passes through the centroid gives no
    moment: with A at C + k Fa and B at C + j Fb the moment cell yields the
    zero vector. *)
Theorem force_through_centroid (k j : Z) (d : Notebook.Data) :
  Notebook.point_a d = Notebook.point_c d ->
  Notebook.point_b d = Notebook.point_c d ->
  small_data (slide k j d) = true ->
  Notebook.Mc (slide k j d) = Some Vec.zero.
Proof.
  intros Ha Hb H.
  destruct (Mc_exact _ H) as (E & _). cbv zeta in E. rewrite E. f_equal.
  unfold Notebook.point_a, Notebook.point_b, Notebook.point_c in Ha, Hb.
  injection Ha as Hax Hay Haz. injection Hb as Hbx Hby Hbz.
  apply vec_eq; unfold_offsets; simpl;
    rewrite ?Hax, ?Hay, ?Haz, ?Hbx, ?Hby, ?Hbz; ring.
Qed.

Lemma force_through_centroid_example :
  Notebook.point_a radial_example = << 0, 0, 1500 >> /\
  Notebook.point_b radial_example = << 0, 800, 1100 >> /\
  Notebook.point_a radial_base = Notebook.point_c radial_base /\
  Notebook.point_b radial_base = Notebook.point_c radial_base /\
  small_data (slide 3 (-2) radial_base) = true /\
  Notebook.Mc (slide 3 (-2) radial_base) = Some Vec.zero.
Proof.
  do 5 (split; [reflexivity|]).
  exact (force_through_centroid 3 (-2) radial_base eq_refl eq_refl eq_refl).
Defined.

(** X7: a load may be moved along the line of action of its force: with A
    moved by k Fa and B by j Fb the moment cell gives the same moment. *)
Theorem Mc_slide (k j : Z) (d : Notebook.Data) :
  small_data d = true -> small_data (slide k j d) = true ->
  Notebook.Mc (slide k j d) = Notebook.Mc d.
Proof.
  intros H H'.
  destruct (Mc_exact d H) as (E & _).
  destruct (Mc_exact _ H') as (E' & _). cbv zeta in E, E'.
  rewrite E, E'. f_equal.
  apply vec_eq; unfold_offsets; simpl; ring.
Qed.

Lemma Mc_slide_scenario1 :
  small_data Notebook.scenario1 = true /\
  small_data (slide 2 (-1) Notebook.scenario1) = true /\
  Notebook.point_a (slide 2 (-1) Notebook.scenario1) = << -2400, 4000, -4500 >> /\
  Notebook.point_b (slide 2 (-1) Notebook.scenario1) = << -3200, -400, 2300 >> /\
  Notebook.Mc (slide 2 (-1) Notebook.scenario1) = Notebook.Mc Notebook.scenario1.
Proof.
  do 4 (split; [reflexivity|]).
  exact (Mc_slide 2 (-1) Notebook.scenario1 eq_refl eq_refl).
Defined.

(** X8: superposition.  On fixed points, the force and the moment cells of
    two load cases added force by force give the sums of the two cases'
    forces and moments. *)
Theorem superposition (fa fb ga gb : Vec3) (d : Notebook.Data) :
  small_data (with_forces fa fb d) = true ->
  small_data (with_forces ga gb d) = true ->
  small_data (with_forces (Vec.add fa ga) (Vec.add fb gb) d) = true ->
  exists f1 f2 m1 m2,
    Notebook.Fc (with_forces fa fb d) = Some f1 /\
    Notebook.Fc (with_forces ga gb d) = Some f2 /\
    Notebook.Fc (with_forces (Vec.add fa ga) (Vec.add fb gb) d) = Some (Vec.add f1 f2) /\
    Notebook.Mc (with_forces fa fb d) = Some m1 /\
    Notebook.Mc (with_forces ga gb d) = Some m2 /\
    Notebook.Mc (with_forces (Vec.add fa ga) (Vec.add fb gb) d) = Some (Vec.add m1 m2).
Proof.
  intros H1 H2 H12.
  destruct (Mc_exact _ H1) as (E1 & _).
  destruct (Mc_exact _ H2) as (E2 & _).
  destruct (Mc_exact _ H12) as (E12 & _). cbv zeta in E1, E2, E12.
  do 4 eexists.
  split; [exact (Fc_exact _ H1)|]. split; [exact (Fc_exact _ H2)|].
  split; [rewrite (Fc_exact _ H12); f_equal; apply vec_eq; simpl; ring|].
  split; [exact E1|]. split; [exact E2|].
  rewrite E12. f_equal. apply vec_eq; unfold_offsets; simpl; ring.
Qed.

Lemma superposition_scenario1 :
  let d := Notebook.scenario1 in
  small_data (with_forces << -1200, 2000, -3000 >> << 3200, 1200, -1200 >> d) = true /\
  small_data (with_forces << 1800, 3300, 2200 >> << 0, 0, 0 >> d) = true /\
  small_data (with_forces (Vec.add << -1200, 2000, -3000 >> << 1800, 3300, 2200 >>)
                          (Vec.add << 3200, 1200, -1200 >> << 0, 0, 0 >>) d) = true /\
  exists f1 f2 m1 m2,
    Notebook.Fc (with_forces << -1200, 2000, -3000 >> << 3200, 1200, -1200 >> d) = Some f1 /\
    Notebook.Fc (with_forces << 1800, 3300, 2200 >> << 0, 0, 0 >> d) = Some f2 /\
    Notebook.Fc (with_forces (Vec.add << -1200, 2000, -3000 >> << 1800, 3300, 2200 >>)
                             (Vec.add << 3200, 1200, -1200 >> << 0, 0, 0 >>) d)
      = Some (Vec.add f1 f2) /\
    Notebook.Mc (with_forces << -1200, 2000, -3000 >> << 3200, 1200, -1200 >> d) = Some m1 /\
    Notebook.Mc (with_forces << 1800, 3300, 2200 >> << 0, 0, 0 >> d) = Some m2 /\
    Notebook.Mc (with_forces (Vec.add << -1200, 2000, -3000 >> << 1800, 3300, 2200 >>)
                             (Vec.add << 3200, 1200, -1200 >> << 0, 0, 0 >>) d)
      = Some (Vec.add m1 m2).
Proof.
  cbv zeta. do 3 (split; [reflexivity|]).
  exact (superposition << -1200, 2000, -3000 >> << 3200, 1200, -1200 >>
           << 1800, 3300, 2200 >> << 0, 0, 0 >> Notebook.scenario1
           eq_refl eq_refl eq_refl).
Defined.

(** X9: on a small data set the manual moment cell gives the vectorised
    cell's moment exactly when the three groups of terms it leaves out are
    zero: CAy Faz, CAx Faz + CBx Fbz and CAx Fay - CAy Fax + CBx Fby. *)
Theorem manual_Mc_agrees_iff (d : Notebook.Data) :
  small_data d = true ->
  (Notebook.Mc d = Some (Mc_manual d) <->
   Notebook.CAy d * Notebook.Faz d = 0 /\
   Notebook.CAx d * Notebook.Faz d + Notebook.CBx d * Notebook.Fbz d = 0 /\
   Notebook.CAx d * Notebook.Fay d - Notebook.CAy d * Notebook.Fax d
     + Notebook.CBx d * Notebook.Fby d = 0).
Proof.
  intros H. rewrite (Mc_manual_gap d H). split.
  - intros E. injection E as Ex Ey Ez. lia.
  - intros (Ex & Ey & Ez). f_equal. apply vec_eq; simpl; lia.
Qed.

Lemma manual_Mc_agrees_iff_exercise31 :
  small_data Notebook.exercise31 = true /\
  Notebook.CAy Notebook.exercise31 * Notebook.Faz Notebook.exercise31 = -2090000 /\
  (Notebook.Mc Notebook.exercise31 = Some (Mc_manual Notebook.exercise31) <->
   Notebook.CAy Notebook.exercise31 * Notebook.Faz Notebook.exercise31 = 0 /\
   Notebook.CAx Notebook.exercise31 * Notebook.Faz Notebook.exercise31
     + Notebook.CBx Notebook.exercise31 * Notebook.Fbz Notebook.exercise31 = 0 /\
   Notebook.CAx Notebook.exercise31 * Notebook.Fay Notebook.exercise31
     - Notebook.CAy Notebook.exercise31 * Notebook.Fax Notebook.exercise31
     + Notebook.CBx Notebook.exercise31 * Notebook.Fby Notebook.exercise31 = 0).
Proof.
  do 2 (split; [reflexivity|]).
  exact (manual_Mc_agrees_iff Notebook.exercise31 eq_refl).
Defined.
